(** * Waste-management chat backend: the topic classifier and the FAQ responder

    A shallow embedding of [src/main.py]: the classifier
    [is_waste_management_question], the [/chat] handler [chat], the
    keyword tables they consult and the diagnostic endpoint
    [test_database], followed by the properties the specification states
    about them and further properties read off the code.

    A Python [str] is a sequence of Unicode code points; it is modelled as a
    list of code points ([N]).  [word in t] on two [str] is contiguous
    substring containment, [any(...)] over a generator is [existsb], and the
    [for ... break] loop of the handler is a left-to-right scan that stops at
    the first hit. *)

From Stdlib Require Import List NArith Bool String Ascii Lia.
Import ListNotations.

Local Open Scope N_scope.
Local Open Scope list_scope.

(* ================================================================== *)
(** ** Python strings *)

(** A [str]: its code points, in order. *)
Definition str := list N.

(** A literal whose characters are all ASCII, as a [str]. *)
Definition lit (s : string) : str :=
  map N_of_ascii (list_ascii_of_string s).

(** U+2014, the dash used in two of the canned answers. *)
Definition em_dash : N := 8212.

(** [t.startswith(w)], the building block of the substring search. *)
Fixpoint startswith (w t : str) : bool :=
  match w, t with
  | [], _ => true
  | _ :: _, [] => false
  | a :: w', b :: t' => (a =? b) && startswith w' t'
  end.

(** [w in t] on strings: [w] occurs in [t] as a contiguous substring. *)
Fixpoint str_in (w t : str) : bool :=
  startswith w t ||
  match t with
  | [] => false
  | _ :: t' => str_in w t'
  end.

(** [any(p(x) for x in xs)]. *)
Definition any {A : Type} (p : A -> bool) (xs : list A) : bool :=
  existsb p xs.

(** *** [str.lower]

    CPython lowers a string of ASCII code points with the ASCII table
    alone ([A]..[Z] to [a]..[z], everything else unchanged).  Strings with a
    code point above 127 go through the Unicode character database, which is
    part of the interpreter and not of this repository: that path is the
    parameter [unicode_lower] below. *)

Definition is_ascii (c : N) : bool := c <? 128.

Definition ascii_tolower (c : N) : N :=
  if (65 <=? c) && (c <=? 90) then c + 32 else c.

(** [str.isspace] on one code point: the code points CPython treats as
    whitespace. *)
Definition isspace (c : N) : bool :=
  ((9 <=? c) && (c <=? 13)) || ((28 <=? c) && (c <=? 32)) ||
  (c =? 133) || (c =? 160) || (c =? 5760) ||
  ((8192 <=? c) && (c <=? 8202)) ||
  (c =? 8232) || (c =? 8233) || (c =? 8239) || (c =? 8287) || (c =? 12288).

(* ================================================================== *)
(** ** The request and response models *)

Record ChatRequest : Type := mkChatRequest {
  message : str
}.

Record ChatResponse : Type := mkChatResponse {
  reply : str;
  allowed : bool;
  reasons : list str
}.

(** [Field(..., min_length=1)]: the only validation of a request body. *)
Definition validate (m : str) : option ChatRequest :=
  if Nat.leb 1 (List.length m) then Some (mkChatRequest m) else None.

(* ================================================================== *)
(** ** The keyword tables *)

Definition waste_keywords : list str :=
  [ (* Core domain *)
    lit "waste"; lit "garbage"; lit "trash"; lit "refuse"; lit "rubbish";
    lit "litter";
    lit "recycle"; lit "recycling"; lit "compost"; lit "composting";
    lit "landfill";
    lit "incineration"; lit "waste segregation"; lit "segregation";
    lit "bin"; lit "bins";
    lit "collection"; lit "pickup"; lit "solid waste";
    lit "hazardous waste"; lit "ewaste";
    lit "e-waste"; lit "medical waste"; lit "organic waste"; lit "plastic";
    lit "paper";
    lit "glass"; lit "metal"; lit "battery"; lit "electronics disposal";
    lit "zero waste";
    lit "circular economy"; lit "resource recovery"; lit "material recovery";
    lit "mrf"; lit "msw"; lit "municipal waste"; lit "biodegradable";
    lit "non-biodegradable";
    lit "sanitary waste"; lit "waste audit"; lit "dumpster";
    lit "transfer station";
    lit "compactor"; lit "leachate"; lit "methane";
    lit "anaerobic digestion";
    lit "extended producer responsibility"; lit "epr";
    (* Services and rules *)
    lit "collection schedule"; lit "pickup schedule"; lit "bulk waste";
    lit "drop-off"; lit "recycling center"; lit "recycling centre";
    lit "clean-up";
    lit "sorting"; lit "guidelines"; lit "contamination"; lit "blue bin";
    lit "green bin";
    lit "brown bin" ].

Definition banned_keywords : list str :=
  [ (* Finance/business topics to exclude *)
    lit "stock"; lit "stocks"; lit "share"; lit "shares"; lit "crypto";
    lit "bitcoin";
    lit "ethereum"; lit "forex"; lit "currency"; lit "currencies";
    lit "dividend";
    lit "portfolio"; lit "valuation"; lit "budget"; lit "loan";
    lit "mortgage"; lit "interest";
    lit "roi"; lit "return on investment"; lit "revenue"; lit "profit";
    lit "loss";
    lit "accounting"; lit "tax"; lit "taxes"; lit "irs"; lit "gst";
    lit "balance sheet";
    lit "income statement"; lit "inflation"; lit "economy"; lit "economic";
    lit "finance";
    lit "financial"; lit "bank"; lit "banking"; lit "trading"; lit "hedge";
    lit "fund" ].

Definition context_hints : list str :=
  [ lit "bin day"; lit "pickup day"; lit "how to dispose"; lit "can i throw" ].

(** The four reasons the classifier can give. *)
Definition reason_banned : str :=
  lit "Question appears to be about finance/business, which is out of scope.".
Definition reason_waste : str :=
  lit "Detected waste-management related keywords.".
Definition reason_context : str :=
  lit "Detected disposal/pickup context.".
Definition reason_default : str :=
  lit "Could not match the topic to waste management.".

(** The replies of the handler. *)
Definition refusal_reply : str :=
  lit "I'm here to help with waste management topics only. Please ask about recycling, disposal guidelines, pickup schedules, composting, etc.".

Definition fallback_reply : str :=
  lit "This appears related to waste management. Could you share your city/area if you need local rules, or specify the material/item you're disposing of?".

Definition ans_plastic : str :=
  lit "Clean and dry plastics with numbers 1-5 are typically recyclable. Film/plastic bags usually are not curbside"
  ++ [em_dash] ++ lit "use store drop-offs if available.".
Definition ans_battery : str :=
  lit "Batteries should not go in regular bins. Use designated e-waste or hazardous waste drop-offs in your city.".
Definition ans_compost : str :=
  lit "Compost accepts food scraps, coffee grounds, yard waste, and uncoated paper. Avoid meat, dairy, and oily foods if your local guidelines restrict them.".
Definition ans_glass : str :=
  lit "Rinse glass containers and remove caps. Some areas separate by color; check local rules.".
Definition ans_electronics : str :=
  lit "Electronics are e-waste. Use certified e-waste collection points for safe recycling.".
Definition ans_pickup : str :=
  lit "Curbside pickup days vary by location. Please check your local collection schedule or provide your area for specific guidance.".
Definition ans_hazard : str :=
  lit "Hazardous waste (paint, chemicals, solvents) requires special drop-offs"
  ++ [em_dash] ++ lit "never place in regular bins.".
Definition ans_landfill : str :=
  lit "Items that are contaminated, mixed materials, or non-recyclable plastics often go to landfill. Consider reuse first.".

Definition faqs : list (str * str) :=
  [ (lit "plastic", ans_plastic);
    (lit "battery", ans_battery);
    (lit "compost", ans_compost);
    (lit "glass", ans_glass);
    (lit "electronics", ans_electronics);
    (lit "pickup", ans_pickup);
    (lit "hazard", ans_hazard);
    (lit "landfill", ans_landfill) ].

(** The loop [for key, ans in faqs: if key in t: reply = ans; break],
    started with the current value of [reply]. *)
Fixpoint faq_scan (fs : list (str * str)) (t : str) (reply : option str)
  : option str :=
  match fs with
  | [] => reply
  | (key, ans) :: rest =>
      if str_in key t then Some ans else faq_scan rest t reply
  end.

(* ================================================================== *)
(** ** What the specification means by its words *)

(** [w] occurs in [t] as a contiguous substring. *)
Definition substring (w t : str) : Prop :=
  exists l r, t = l ++ w ++ r.

(** [t] contains one of the phrases of the table [ks]. *)
Definition mentions (ks : list str) (t : str) : Prop :=
  exists w, In w ks /\ substring w t.

(** The four outcomes of the classifier. *)
Definition outcome_banned : bool * list str := (false, [reason_banned]).
Definition outcome_waste : bool * list str := (true, [reason_waste]).
Definition outcome_context : bool * list str := (true, [reason_context]).
Definition outcome_default : bool * list str := (false, [reason_default]).

(** The phrase begins with a character that is no whitespace. *)
Definition starts_nonspace (w : str) : bool :=
  match w with
  | [] => false
  | c :: _ => negb (isspace c)
  end.

(** A Unicode database without any case mapping: an instance of the
    parameter [unicode_lower] of the classifier. *)
Definition no_case_mapping (s : str) : str := s.

(** The requests of the specification's scenarios. *)
Definition req_bin_day : ChatRequest :=
  mkChatRequest (lit "Tell me about bin day").
Definition req_plastic_battery : ChatRequest :=
  mkChatRequest (lit "plastic battery").
Definition req_recycling_pickup : ChatRequest :=
  mkChatRequest (lit "When is my recycling pickup?").

(** Equality of two [str], code point by code point. *)
Fixpoint str_eqb (a b : str) : bool :=
  match a, b with
  | [], [] => true
  | x :: a', y :: b' => (x =? y) && str_eqb a' b'
  | _, _ => false
  end.

(** The waste keywords that contain no other waste keyword, in the order
    of the table. *)
Definition waste_core : list str :=
  [ lit "waste"; lit "garbage"; lit "trash"; lit "refuse"; lit "rubbish";
    lit "litter"; lit "recycle"; lit "recycling"; lit "compost";
    lit "landfill"; lit "incineration"; lit "segregation"; lit "bin";
    lit "collection"; lit "pickup"; lit "plastic"; lit "paper"; lit "glass";
    lit "metal"; lit "battery"; lit "electronics disposal";
    lit "circular economy"; lit "resource recovery";
    lit "material recovery"; lit "mrf"; lit "msw"; lit "biodegradable";
    lit "dumpster"; lit "transfer station"; lit "compactor"; lit "leachate";
    lit "methane"; lit "anaerobic digestion";
    lit "extended producer responsibility"; lit "epr"; lit "drop-off";
    lit "clean-up"; lit "sorting"; lit "guidelines"; lit "contamination" ].

(** The banned keywords that contain no other banned keyword, in the order
    of the table. *)
Definition banned_core : list str :=
  [ lit "stock"; lit "share"; lit "crypto"; lit "bitcoin"; lit "ethereum";
    lit "forex"; lit "currency"; lit "currencies"; lit "dividend";
    lit "portfolio"; lit "valuation"; lit "budget"; lit "loan";
    lit "mortgage"; lit "interest"; lit "roi"; lit "return on investment";
    lit "revenue"; lit "profit"; lit "loss"; lit "accounting"; lit "tax";
    lit "irs"; lit "gst"; lit "balance sheet"; lit "income statement";
    lit "inflation"; lit "economy"; lit "economic"; lit "finance";
    lit "financial"; lit "bank"; lit "trading"; lit "hedge"; lit "fund" ].

(** The keys of the FAQ table that are waste keywords too. *)
Definition faq_waste_keys : list str :=
  [ lit "plastic"; lit "battery"; lit "compost"; lit "glass"; lit "pickup";
    lit "landfill" ].

(* ================================================================== *)
(** ** The diagnostic endpoint [/test]

    The module [database] is not among the sources.  What [test_database]
    observes of it is an input of the model: whether [from database import
    db] raises, and for a database handle its [name] attribute, if it has
    one, and what [list_collection_names()] returns or raises.  The handle
    is taken to be a MongoDB-style database: [name] is a string and
    [list_collection_names()] a list of strings.  Exceptions are those that
    derive from [Exception]; [e] stands for [str(e)]. *)

Record Database : Type := mkDatabase {
  name : option str;
  list_collection_names : str + list str
}.

Inductive ImportOutcome : Type :=
| ImportError
| ImportException (e : str)
| Imported (db : option Database).

(** The values of the keys of the dict [response], which are the same six
    from its creation to the return. *)
Record TestResponse : Type := mkTestResponse {
  backend : str;
  database : str;
  database_url : option str;
  database_name : option str;
  connection_status : str;
  collections : list str
}.

Definition set_database (v : str) (r : TestResponse) : TestResponse :=
  mkTestResponse (backend r) v (database_url r) (database_name r)
                 (connection_status r) (collections r).
Definition set_database_url (v : option str) (r : TestResponse)
  : TestResponse :=
  mkTestResponse (backend r) (database r) v (database_name r)
                 (connection_status r) (collections r).
Definition set_database_name (v : option str) (r : TestResponse)
  : TestResponse :=
  mkTestResponse (backend r) (database r) (database_url r) v
                 (connection_status r) (collections r).
Definition set_connection_status (v : str) (r : TestResponse)
  : TestResponse :=
  mkTestResponse (backend r) (database r) (database_url r) (database_name r)
                 v (collections r).
Definition set_collections (v : list str) (r : TestResponse) : TestResponse :=
  mkTestResponse (backend r) (database r) (database_url r) (database_name r)
                 (connection_status r) v.

(** U+2705, U+274C and U+26A0 U+FE0F, the marks of the status texts. *)
Definition check_mark : str := [9989].
Definition cross_mark : str := [10060].
Definition warning_sign : str := [9888; 65039].

(** The truth value of what [os.getenv] returns: [None] and the empty
    string are false. *)
Definition truthy (v : option str) : bool :=
  match v with
  | Some (_ :: _) => true
  | _ => false
  end.

Definition test_database (import_db : ImportOutcome)
           (getenv : str -> option str) : TestResponse :=
  let response :=
    mkTestResponse
      (check_mark ++ lit " Running")
      (cross_mark ++ lit " Not Available")
      None
      None
      (lit "Not Connected")
      [] in
  let response :=
    match import_db with
    | Imported (Some db) =>
        let response :=
          set_database (check_mark ++ lit " Available") response in
        let response :=
          set_database_url (Some (check_mark ++ lit " Configured")) response in
        let response :=
          set_database_name
            (Some (match name db with
                   | Some n => n
                   | None => check_mark ++ lit " Connected"
                   end)) response in
        let response := set_connection_status (lit "Connected") response in
        match list_collection_names db with
        | inr collections =>
            let response :=
              set_collections (firstn 10 collections) response in
            set_database (check_mark ++ lit " Connected & Working") response
        | inl e =>
            set_database
              (warning_sign ++ lit "  Connected but Error: " ++ firstn 50 e)
              response
        end
    | Imported None =>
        set_database
          (warning_sign ++ lit "  Available but not initialized") response
    | ImportError =>
        set_database
          (cross_mark
           ++ lit " Database module not found (run enable-database first)")
          response
    | ImportException e =>
        set_database (cross_mark ++ lit " Error: " ++ firstn 50 e) response
    end in
  let response :=
    set_database_url
      (Some (if truthy (getenv (lit "DATABASE_URL"))
             then check_mark ++ lit " Set"
             else cross_mark ++ lit " Not Set")) response in
  let response :=
    set_database_name
      (Some (if truthy (getenv (lit "DATABASE_NAME"))
             then check_mark ++ lit " Set"
             else cross_mark ++ lit " Not Set")) response in
  response.

(** An environment with [DATABASE_URL] set and [DATABASE_NAME] set to the
    empty string, and a handle whose listing raises. *)
Definition env_url_only (key : str) : option str :=
  if str_eqb key (lit "DATABASE_URL") then Some (lit "mongodb://localhost")
  else if str_eqb key (lit "DATABASE_NAME") then Some []
  else None.

Definition db_unreachable : Database :=
  mkDatabase (Some (lit "waste")) (inl (lit "connection refused")).


(* ================================================================== *)
(** ** The classifier and the handler *)

Section Backend.

(** The lowering of a string that has a non-ASCII code point, as the
    interpreter's Unicode database defines it. *)
Variable unicode_lower : str -> str.

Definition lower (s : str) : str :=
  if forallb is_ascii s then map ascii_tolower s else unicode_lower s.

Definition is_waste_management_question (text : str) : bool * list str :=
  let t := lower text in
  let reasons : list str := [] in
  let banned_hit := any (fun word => str_in word t) banned_keywords in
  let waste_hit := any (fun word => str_in word t) waste_keywords in
  if banned_hit && negb waste_hit then
    let reasons := reasons ++ [reason_banned] in
    (false, reasons)
  else if waste_hit then
    let reasons := reasons ++ [reason_waste] in
    (true, reasons)
  else if any (fun h => str_in h t) context_hints then
    let reasons := reasons ++ [reason_context] in
    (true, reasons)
  else
    let reasons := reasons ++ [reason_default] in
    (false, reasons).

Definition chat (req : ChatRequest) : ChatResponse :=
  let '(allowed, reasons) := is_waste_management_question (message req) in
  if negb allowed then
    mkChatResponse refusal_reply false reasons
  else
    let t := lower (message req) in
    let reply := faq_scan faqs t None in
    let reply :=
      match reply with
      | None => fallback_reply
      | Some r => r
      end in
    mkChatResponse reply true reasons.

(* ================================================================== *)
(** ** Substring search *)

Lemma startswith_iff (w t : str) :
  startswith w t = true <-> exists r, t = w ++ r.
Proof.
  revert t; induction w as [|a w IH]; intros t; simpl.
  - split; eauto.
  - destruct t as [|b t].
    + split; [discriminate | intros [r H]; discriminate].
    + rewrite andb_true_iff, N.eqb_eq, IH. split.
      * intros [-> [r ->]]. eauto.
      * intros [r H]. injection H as -> ->. eauto.
Qed.

Lemma str_in_nil (w : str) : str_in w [] = startswith w [] || false.
Proof. reflexivity. Qed.

Lemma str_in_cons (w : str) (b : N) (t : str) :
  str_in w (b :: t) = startswith w (b :: t) || str_in w t.
Proof. reflexivity. Qed.

(** The search of the model decides substring containment. *)
Lemma str_in_iff (w t : str) : str_in w t = true <-> substring w t.
Proof.
  unfold substring. induction t as [|b t IH].
  - rewrite str_in_nil, orb_false_r, startswith_iff. split.
    + intros [r H]. exists [], r. exact H.
    + intros (l & r & H). destruct l as [|x l]; [|discriminate].
      exists r. exact H.
  - rewrite str_in_cons, orb_true_iff, startswith_iff, IH. split.
    + intros [[r H] | (l & r & H)].
      * exists [], r. exact H.
      * exists (b :: l), r. simpl. now rewrite H.
    + intros (l & r & H). destruct l as [|x l].
      * left. exists r. exact H.
      * right. injection H as _ H. eauto.
Qed.

Lemma str_in_false_iff (w t : str) : str_in w t = false <-> ~ substring w t.
Proof.
  rewrite <- str_in_iff. destruct (str_in w t); split; intro H;
    try reflexivity; try discriminate; try (intros ?; discriminate).
  now elim H.
Qed.

Lemma substring_app_l (a b t : str) : substring (a ++ b) t -> substring a t.
Proof.
  intros (l & r & ->). exists l, (b ++ r). now rewrite <- app_assoc.
Qed.

Lemma any_str_in_iff (ks : list str) (t : str) :
  any (fun w => str_in w t) ks = true <-> mentions ks t.
Proof.
  unfold any, mentions. rewrite existsb_exists.
  split; intros (w & Hin & H); exists w; split; trivial; now apply str_in_iff.
Qed.

Lemma any_str_in_false_iff (ks : list str) (t : str) :
  any (fun w => str_in w t) ks = false <-> ~ mentions ks t.
Proof.
  rewrite <- any_str_in_iff.
  destruct (any (fun w => str_in w t) ks); split; intro H;
    try reflexivity; try discriminate; try (intros ?; discriminate).
  now elim H.
Qed.

(** A phrase that begins with a character that is no whitespace does not
    occur in a text of whitespace alone. *)
Lemma str_in_blank (w t : str) :
  starts_nonspace w = true -> forallb isspace t = true -> str_in w t = false.
Proof.
  intros Hw. destruct w as [|c w]; [discriminate|]. simpl in Hw.
  apply negb_true_iff in Hw.
  induction t as [|b t IH]; intros Ht; [reflexivity|].
  simpl in Ht. apply andb_true_iff in Ht as [Hb Ht].
  rewrite str_in_cons, (IH Ht), orb_false_r. simpl.
  destruct (N.eqb_spec c b) as [->|_]; [|reflexivity].
  congruence.
Qed.

Lemma any_str_in_blank (ks : list str) (t : str) :
  forallb starts_nonspace ks = true -> forallb isspace t = true ->
  any (fun w => str_in w t) ks = false.
Proof.
  intros Hks Ht. induction ks as [|w ks IH]; [reflexivity|].
  simpl in Hks. apply andb_true_iff in Hks as [Hw Hks].
  unfold any in *. simpl. now rewrite (str_in_blank w t Hw Ht), (IH Hks).
Qed.

(** The ASCII table leaves whitespace alone. *)
Lemma ascii_tolower_space (c : N) : isspace c = true -> ascii_tolower c = c.
Proof.
  unfold isspace, ascii_tolower. intros H.
  destruct (N.leb_spec 65 c), (N.leb_spec c 90); simpl; trivial.
  repeat (apply orb_true_iff in H as [H|H]);
    repeat (apply andb_true_iff in H as [? H]);
    repeat match goal with
           | E : (_ <=? _) = true |- _ => apply N.leb_le in E
           | E : (_ =? _) = true |- _ => apply N.eqb_eq in E
           end; lia.
Qed.

Lemma map_ascii_tolower_blank (t : str) :
  forallb isspace t = true -> map ascii_tolower t = t.
Proof.
  induction t as [|b t IH]; simpl; intros H; [reflexivity|].
  apply andb_true_iff in H as [Hb Ht].
  now rewrite (ascii_tolower_space b Hb), (IH Ht).
Qed.

(** The loop over the table returns the answer of the first hit. *)
Lemma faq_scan_first (pre post : list (str * str)) (key ans t : str)
      (r : option str) :
  (forall k a, In (k, a) pre -> str_in k t = false) ->
  str_in key t = true ->
  faq_scan (pre ++ (key, ans) :: post) t r = Some ans.
Proof.
  induction pre as [|[k a] pre IH]; intros Hpre Hkey; simpl.
  - now rewrite Hkey.
  - rewrite (Hpre k a (or_introl eq_refl)).
    apply IH; [|exact Hkey]. intros k' a' Hin. apply (Hpre k' a'). now right.
Qed.

(** Without a hit the loop leaves [reply] as it was. *)
Lemma faq_scan_none (fs : list (str * str)) (t : str) (r : option str) :
  (forall k a, In (k, a) fs -> str_in k t = false) ->
  faq_scan fs t r = r.
Proof.
  induction fs as [|[k a] fs IH]; intros H; simpl; [reflexivity|].
  rewrite (H k a (or_introl eq_refl)). apply IH.
  intros k' a' Hin. apply (H k' a'). now right.
Qed.

(** Whatever the loop returns from [None] is an answer of the table. *)
Lemma faq_scan_answer (fs : list (str * str)) (t ans : str) :
  faq_scan fs t None = Some ans -> exists k, In (k, ans) fs.
Proof.
  induction fs as [|[k a] fs IH]; simpl; [discriminate|].
  destruct (str_in k t).
  - intros [= ->]. eauto.
  - intros H. destruct (IH H) as [k' Hk']. eauto.
Qed.

(* ================================================================== *)
(** ** The classifier, branch by branch *)

(** The result of the classifier in terms of the three table lookups. *)
Lemma classifier_cases (text : str) :
  is_waste_management_question text =
    let t := lower text in
    if any (fun w => str_in w t) waste_keywords then outcome_waste
    else if any (fun w => str_in w t) banned_keywords then outcome_banned
    else if any (fun h => str_in h t) context_hints then outcome_context
    else outcome_default.
Proof.
  unfold is_waste_management_question. cbv zeta.
  destruct (any (fun w => str_in w (lower text)) banned_keywords),
    (any (fun w => str_in w (lower text)) waste_keywords),
    (any (fun h => str_in h (lower text)) context_hints); reflexivity.
Qed.

Lemma classifier_four_outcomes (text : str) :
  is_waste_management_question text = outcome_banned \/
  is_waste_management_question text = outcome_waste \/
  is_waste_management_question text = outcome_context \/
  is_waste_management_question text = outcome_default.
Proof.
  rewrite classifier_cases. cbv zeta.
  destruct (any (fun w => str_in w (lower text)) waste_keywords),
    (any (fun w => str_in w (lower text)) banned_keywords),
    (any (fun h => str_in h (lower text)) context_hints); auto.
Qed.

(** The handler in terms of the classifier's verdict. *)
Lemma chat_allowed (req : ChatRequest) (rs : list str) :
  is_waste_management_question (message req) = (true, rs) ->
  chat req =
    mkChatResponse
      (match faq_scan faqs (lower (message req)) None with
       | None => fallback_reply
       | Some r => r
       end) true rs.
Proof. intros H. unfold chat. now rewrite H. Qed.

Lemma chat_refused (req : ChatRequest) (rs : list str) :
  is_waste_management_question (message req) = (false, rs) ->
  chat req = mkChatResponse refusal_reply false rs.
Proof. intros H. unfold chat. now rewrite H. Qed.

(** Lowering a text of whitespace alone gives the text back, provided the
    Unicode database has no case mapping for whitespace. *)
Lemma lower_blank (text : str) :
  (forall s, forallb isspace s = true -> unicode_lower s = s) ->
  forallb isspace text = true -> lower text = text.
Proof.
  intros Hdb Ht. unfold lower.
  destruct (forallb is_ascii text).
  - now apply map_ascii_tolower_blank.
  - now apply Hdb.
Qed.

(** The phrases [bin day] and [pickup day] extend the waste keywords [bin]
    and [pickup]. *)
Lemma bin_day_mentions_waste (t : str) :
  substring (lit "bin day") t -> mentions waste_keywords t.
Proof.
  intros H. exists (lit "bin"). split.
  - unfold waste_keywords. simpl. tauto.
  - apply (substring_app_l (lit "bin") (lit " day")). exact H.
Qed.

Lemma pickup_day_mentions_waste (t : str) :
  substring (lit "pickup day") t -> mentions waste_keywords t.
Proof.
  intros H. exists (lit "pickup"). split.
  - unfold waste_keywords. simpl. tauto.
  - apply (substring_app_l (lit "pickup") (lit " day")). exact H.
Qed.

(** C1: a text whose lowercased form contains a waste-domain keyword is
    allowed, with the single reason that waste-management keywords were
    detected; a banned keyword in the same text changes nothing. *)
Theorem waste_keyword_allowed (text : str) :
  mentions waste_keywords (lower text) ->
  is_waste_management_question text = (true, [reason_waste]).
Proof.
  intros H. apply any_str_in_iff in H.
  rewrite classifier_cases. cbv zeta. now rewrite H.
Qed.

(** C2: a text whose lowercased form contains a banned keyword and no
    waste-domain keyword is refused, with the single reason that
    finance/business is out of scope. *)
Theorem banned_keyword_refused (text : str) :
  mentions banned_keywords (lower text) ->
  ~ mentions waste_keywords (lower text) ->
  is_waste_management_question text = (false, [reason_banned]).
Proof.
  intros Hb Hw. apply any_str_in_iff in Hb. apply any_str_in_false_iff in Hw.
  rewrite classifier_cases. cbv zeta. now rewrite Hw, Hb.
Qed.

(** C5: a text whose lowercased form contains no waste-domain keyword and no
    banned keyword but one of the context hints is allowed, with the single
    reason that a disposal/pickup context was detected. *)
Theorem context_hint_allowed (text : str) :
  ~ mentions waste_keywords (lower text) ->
  ~ mentions banned_keywords (lower text) ->
  mentions
    [lit "bin day"; lit "pickup day"; lit "how to dispose"; lit "can i throw"]
    (lower text) ->
  is_waste_management_question text = (true, [reason_context]).
Proof.
  intros Hw Hb Hc. apply any_str_in_false_iff in Hw, Hb.
  apply (any_str_in_iff context_hints) in Hc.
  rewrite classifier_cases. cbv zeta. now rewrite Hw, Hb, Hc.
Qed.

(** C6: a text whose lowercased form contains no waste keyword, no banned
    keyword and no context hint is refused, with the single reason that the
    topic could not be matched to waste management. *)
Theorem no_match_refused (text : str) :
  ~ mentions waste_keywords (lower text) ->
  ~ mentions banned_keywords (lower text) ->
  ~ mentions context_hints (lower text) ->
  is_waste_management_question text = (false, [reason_default]).
Proof.
  intros Hw Hb Hc. apply any_str_in_false_iff in Hw, Hb, Hc.
  rewrite classifier_cases. cbv zeta. now rewrite Hw, Hb, Hc.
Qed.

(* ================================================================== *)
(** ** The handler *)

Lemma faqs_answers_nonempty (k ans : str) : In (k, ans) faqs -> ans <> [].
Proof.
  intros Hin.
  assert (H : forallb (fun p => negb (Nat.eqb (List.length (snd p)) 0)) faqs
              = true) by (vm_compute; reflexivity).
  rewrite forallb_forall in H. specialize (H _ Hin). simpl in H.
  intros ->. discriminate.
Qed.

(** C7: for every request the response has a reply that is not empty and
    exactly one reason, the one reason the classifier gives on each of its
    paths. *)
Theorem chat_reply_nonempty_one_reason (req : ChatRequest) :
  reply (chat req) <> [] /\
  List.length (reasons (chat req)) = 1%nat /\
  List.length (snd (is_waste_management_question (message req))) = 1%nat /\
  reasons (chat req) = snd (is_waste_management_question (message req)).
Proof.
  assert (Hscan : match faq_scan faqs (lower (message req)) None with
                  | None => fallback_reply
                  | Some r => r
                  end <> []).
  { destruct (faq_scan faqs (lower (message req)) None) as [r|] eqn:E.
    - destruct (faq_scan_answer _ _ _ E) as [k Hk].
      exact (faqs_answers_nonempty k r Hk).
    - discriminate. }
  destruct (classifier_four_outcomes (message req)) as [H | [H | [H | H]]];
    rewrite H;
    first [ rewrite (chat_refused req _ H) | rewrite (chat_allowed req _ H) ];
    simpl; repeat split; trivial; discriminate.
Qed.

(** C4: when the text is allowed, the reply is the answer of the first pair
    of the table whose keyword occurs in the lowercased text; for
    [plastic battery], where both keywords occur, it is the answer for
    [plastic] and not the one for [battery]. *)
Theorem faq_first_match :
  (forall (req : ChatRequest) (pre post : list (str * str)) (key ans : str),
     fst (is_waste_management_question (message req)) = true ->
     faqs = pre ++ (key, ans) :: post ->
     (forall k a, In (k, a) pre -> ~ substring k (lower (message req))) ->
     substring key (lower (message req)) ->
     reply (chat req) = ans) /\
  (substring (lit "plastic") (lower (message req_plastic_battery)) /\
   substring (lit "battery") (lower (message req_plastic_battery)) /\
   allowed (chat req_plastic_battery) = true /\
   reply (chat req_plastic_battery) = ans_plastic /\
   reply (chat req_plastic_battery) <> ans_battery).
Proof.
  split.
  - intros req pre post key ans Hal Hfaqs Hpre Hkey.
    destruct (is_waste_management_question (message req)) as [al rs] eqn:E.
    simpl in Hal. subst al.
    rewrite (chat_allowed req rs E), Hfaqs. simpl.
    rewrite faq_scan_first; trivial.
    + intros k a Hin. apply str_in_false_iff. now apply (Hpre k a).
    + now apply str_in_iff.
  - repeat split; try (apply str_in_iff); vm_compute; try reflexivity.
    discriminate.
Qed.

(** C9: for [When is my recycling pickup?] the response is allowed and its
    reply is the answer of the [pickup] pair, no keyword of an earlier pair
    of the table occurring in the lowercased text. *)
Theorem recycling_pickup_reply :
  allowed (chat req_recycling_pickup) = true /\
  reply (chat req_recycling_pickup) = ans_pickup /\
  exists pre post,
    faqs = pre ++ (lit "pickup", ans_pickup) :: post /\
    Forall (fun p => ~ substring (fst p) (lower (message req_recycling_pickup)))
           pre.
Proof.
  split; [vm_compute; reflexivity|].
  split; [vm_compute; reflexivity|].
  exists (firstn 5 faqs), (skipn 6 faqs). split; [reflexivity|].
  repeat constructor; apply str_in_false_iff; vm_compute; reflexivity.
Qed.

(** C3, as the code has it: for [Tell me about bin day] the response is
    allowed on the waste-keyword path, the waste keyword [bin] occurring in
    the text, with the reason that waste-management keywords were detected
    and the generic fallback reply. *)
Theorem bin_day_waste_path :
  substring (lit "bin") (lower (message req_bin_day)) /\
  In (lit "bin") waste_keywords /\
  chat req_bin_day = mkChatResponse fallback_reply true [reason_waste].
Proof.
  split; [apply str_in_iff; vm_compute; reflexivity|].
  split; [unfold waste_keywords; simpl; tauto|].
  vm_compute; reflexivity.
Qed.

(* ================================================================== *)
(** ** Totality and blank input *)

Lemma blank_default (text : str) :
  (forall s, forallb isspace s = true -> unicode_lower s = s) ->
  forallb isspace text = true ->
  is_waste_management_question text = (false, [reason_default]).
Proof.
  intros Hdb Ht. rewrite classifier_cases. cbv zeta.
  rewrite (lower_blank text Hdb Ht).
  rewrite !any_str_in_blank; trivial; vm_compute; reflexivity.
Qed.

(** C8: the classifier returns one of its four outcomes for every string;
    for the empty string, and for a string of whitespace alone (the Unicode
    database mapping no whitespace to anything else), it returns the default
    outcome: refused, the topic could not be matched. *)
Theorem classifier_total_blank_default :
  (forall text : str,
     is_waste_management_question text = outcome_banned \/
     is_waste_management_question text = outcome_waste \/
     is_waste_management_question text = outcome_context \/
     is_waste_management_question text = outcome_default) /\
  is_waste_management_question [] = (false, [reason_default]) /\
  ((forall s, forallb isspace s = true -> unicode_lower s = s) ->
   forall text : str,
     forallb isspace text = true ->
     is_waste_management_question text = (false, [reason_default])).
Proof.
  split; [exact classifier_four_outcomes|].
  split; [vm_compute; reflexivity|].
  intros Hdb text Ht. now apply blank_default.
Qed.

(* ================================================================== *)
(** ** The context hints that can fire *)

Lemma reasons_distinct :
  reason_context <> reason_banned /\ reason_context <> reason_waste /\
  reason_context <> reason_default.
Proof. repeat split; discriminate. Qed.

(** C10: when the classifier gives the disposal/pickup-context reason, the
    lowercased text contains [how to dispose] or [can i throw]; a text with
    [bin day] or [pickup day] contains the waste keyword [bin] or [pickup]
    and is accepted on the waste-keyword path. *)
Theorem context_reason_dispose_or_throw :
  (forall text : str,
     In reason_context (snd (is_waste_management_question text)) ->
     substring (lit "how to dispose") (lower text) \/
     substring (lit "can i throw") (lower text)) /\
  (forall text : str,
     substring (lit "bin day") (lower text) \/
     substring (lit "pickup day") (lower text) ->
     mentions waste_keywords (lower text) /\
     is_waste_management_question text = (true, [reason_waste])).
Proof.
  destruct reasons_distinct as (Nb & Nw & Nd).
  split.
  - intros text. rewrite classifier_cases. cbv zeta.
    destruct (any (fun w => str_in w (lower text)) waste_keywords) eqn:Hw;
      [intros [H|[]]; now elim Nw|].
    destruct (any (fun w => str_in w (lower text)) banned_keywords);
      [intros [H|[]]; now elim Nb|].
    destruct (any (fun h => str_in h (lower text)) context_hints) eqn:Hc;
      [|intros [H|[]]; now elim Nd].
    intros _. apply any_str_in_false_iff in Hw.
    apply any_str_in_iff in Hc. destruct Hc as (h & Hin & Hsub).
    unfold context_hints in Hin. simpl in Hin.
    destruct Hin as [<- | [<- | [<- | [<- | []]]]]; auto.
    + elim Hw. now apply bin_day_mentions_waste.
    + elim Hw. now apply pickup_day_mentions_waste.
  - intros text H.
    assert (Hm : mentions waste_keywords (lower text)).
    { destruct H; [now apply bin_day_mentions_waste
                  | now apply pickup_day_mentions_waste]. }
    split; [exact Hm|]. apply any_str_in_iff in Hm.
    rewrite classifier_cases. cbv zeta. now rewrite Hm.
Qed.

(* ================================================================== *)
(** ** More on substrings and on the ASCII lowering *)

Lemma str_eqb_eq (a b : str) : str_eqb a b = true <-> a = b.
Proof.
  revert b; induction a as [|x a IH]; intros [|y b]; simpl;
    try (split; [discriminate | intros H; discriminate H]).
  - split; reflexivity.
  - rewrite andb_true_iff, N.eqb_eq, IH. split.
    + intros [-> ->]. reflexivity.
    + intros [= -> ->]. auto.
Qed.

Lemma in_table_iff (k : str) (ks : list str) :
  existsb (str_eqb k) ks = true <-> In k ks.
Proof.
  rewrite existsb_exists. split.
  - intros (w & Hin & H). apply str_eqb_eq in H. now subst.
  - intros Hin. exists k. split; [exact Hin | now apply str_eqb_eq].
Qed.

Ltac in_table := apply in_table_iff; vm_compute; reflexivity.

Lemma substring_length (w t : str) :
  substring w t -> (List.length w <= List.length t)%nat.
Proof.
  intros (l & r & ->). rewrite !length_app. lia.
Qed.

Lemma substring_extend (w t l r : str) :
  substring w t -> substring w (l ++ t ++ r).
Proof.
  intros (l' & r' & ->). exists (l ++ l'), (r' ++ r).
  now rewrite <- !app_assoc.
Qed.

Lemma substring_trans (a b c : str) :
  substring a b -> substring b c -> substring a c.
Proof.
  intros Hab (l & r & ->). now apply substring_extend.
Qed.


(** A table whose every phrase contains a phrase of a second table hits
    only where the second table hits. *)
Lemma mentions_subsumed (ks ks' : list str) (t : str) :
  (forall w, In w ks -> exists k, In k ks' /\ substring k w) ->
  mentions ks t -> mentions ks' t.
Proof.
  intros Hsub (w & Hin & Hw). destruct (Hsub w Hin) as (k & Hk & Hkw).
  exists k. split; [exact Hk|]. now apply (substring_trans k w t).
Qed.

Lemma subsumed_by_check (ks ks' : list str) :
  forallb (fun w => existsb (fun k => str_in k w) ks') ks = true ->
  forall w, In w ks -> exists k, In k ks' /\ substring k w.
Proof.
  intros H w Hin. rewrite forallb_forall in H. specialize (H w Hin).
  apply existsb_exists in H as (k & Hk & Hkw).
  exists k. split; [exact Hk | now apply str_in_iff].
Qed.

Lemma any_false_in (ks : list str) (t k : str) :
  any (fun w => str_in w t) ks = false -> In k ks -> str_in k t = false.
Proof.
  intros H Hin. destruct (str_in k t) eqn:E; [|reflexivity].
  assert (Ht : any (fun w => str_in w t) ks = true).
  { unfold any. apply existsb_exists. eauto. }
  congruence.
Qed.

Lemma any_bool_eq (ks ks' : list str) (t : str) :
  (mentions ks t <-> mentions ks' t) ->
  any (fun w => str_in w t) ks = any (fun w => str_in w t) ks'.
Proof.
  intros H.
  destruct (any (fun w => str_in w t) ks) eqn:E1,
           (any (fun w => str_in w t) ks') eqn:E2; trivial.
  - apply any_str_in_iff, H, any_str_in_iff in E1. congruence.
  - apply any_str_in_iff, H, any_str_in_iff in E2. congruence.
Qed.

Lemma lower_ascii (s : str) :
  forallb is_ascii s = true -> lower s = map ascii_tolower s.
Proof. intros H. unfold lower. now rewrite H. Qed.

Lemma ascii_tolower_is_ascii (c : N) :
  is_ascii c = true -> is_ascii (ascii_tolower c) = true.
Proof.
  unfold is_ascii, ascii_tolower. intros H. apply N.ltb_lt in H.
  destruct (N.leb_spec 65 c), (N.leb_spec c 90); simpl;
    apply N.ltb_lt; lia.
Qed.

Lemma ascii_tolower_idem (c : N) :
  ascii_tolower (ascii_tolower c) = ascii_tolower c.
Proof.
  unfold ascii_tolower.
  destruct ((65 <=? c) && (c <=? 90)) eqn:E; [|now rewrite E].
  apply andb_true_iff in E as [E1 E2]. apply N.leb_le in E1, E2.
  destruct (N.leb_spec (c + 32) 90); [lia|]. now rewrite andb_false_r.
Qed.

Lemma map_ascii_tolower_is_ascii (s : str) :
  forallb is_ascii s = true -> forallb is_ascii (map ascii_tolower s) = true.
Proof.
  induction s as [|c s IH]; simpl; [trivial|].
  rewrite !andb_true_iff. intros [Hc Hs].
  split; [now apply ascii_tolower_is_ascii | now apply IH].
Qed.

Lemma lower_ascii_idem (s : str) :
  forallb is_ascii s = true -> lower (map ascii_tolower s) = lower s.
Proof.
  intros H. rewrite (lower_ascii s H).
  rewrite (lower_ascii _ (map_ascii_tolower_is_ascii s H)).
  rewrite map_map. apply map_ext. intros c. apply ascii_tolower_idem.
Qed.


(** The response depends on the message through its lowered form alone. *)
Lemma chat_lower_eq (r1 r2 : ChatRequest) :
  lower (message r1) = lower (message r2) -> chat r1 = chat r2.
Proof.
  intros H. unfold chat, is_waste_management_question. cbv zeta.
  now rewrite H.
Qed.

Lemma faq_scan_none_iff (fs : list (str * str)) (t : str) :
  faq_scan fs t None = None <->
  forall k a, In (k, a) fs -> str_in k t = false.
Proof.
  induction fs as [|[k a] fs IH]; simpl.
  - split; [intros _ k a [] | reflexivity].
  - destruct (str_in k t) eqn:E.
    + split; [discriminate|]. intros H.
      specialize (H k a (or_introl eq_refl)). congruence.
    + rewrite IH. split.
      * intros H k' a' [[= <- <-] | Hin]; [exact E | now apply (H k' a')].
      * intros H k' a' Hin. apply (H k' a'). now right.
Qed.

Lemma classifier_waste_hit (text : str) :
  any (fun w => str_in w (lower text)) waste_keywords = true ->
  is_waste_management_question text = outcome_waste.
Proof. intros H. rewrite classifier_cases. cbv zeta. now rewrite H. Qed.


Lemma replies_distinct (k a : str) :
  In (k, a) faqs -> a <> refusal_reply /\ a <> fallback_reply.
Proof.
  intros Hin.
  assert (H : forallb (fun p => negb (str_eqb (snd p) refusal_reply) &&
                                negb (str_eqb (snd p) fallback_reply)) faqs
              = true) by (vm_compute; reflexivity).
  rewrite forallb_forall in H. specialize (H _ Hin). simpl in H.
  apply andb_true_iff in H as [H1 H2].
  apply negb_true_iff in H1, H2.
  split; intros ->.
  - assert (E : str_eqb refusal_reply refusal_reply = true)
      by now apply str_eqb_eq.
    congruence.
  - assert (E : str_eqb fallback_reply fallback_reply = true)
      by now apply str_eqb_eq.
    congruence.
Qed.

Lemma fallback_not_refusal : fallback_reply <> refusal_reply.
Proof. discriminate. Qed.

(* ================================================================== *)
(** ** Further properties of the classifier *)

(** X1: two ASCII messages that differ only in the case of their letters
    get the same response. *)
Theorem chat_case_insensitive (a b : str) :
  forallb is_ascii a = true ->
  forallb is_ascii b = true ->
  map ascii_tolower a = map ascii_tolower b ->
  chat (mkChatRequest a) = chat (mkChatRequest b).
Proof.
  intros Ha Hb H. apply chat_lower_eq. simpl.
  now rewrite (lower_ascii a Ha), (lower_ascii b Hb).
Qed.


(** X4: a text is allowed exactly when its lowered form contains a waste
    keyword, or contains no banned keyword and one of the phrases
    [how to dispose] and [can i throw]. *)
Theorem allowed_iff (text : str) :
  fst (is_waste_management_question text) = true <->
  mentions waste_keywords (lower text) \/
  (~ mentions banned_keywords (lower text) /\
   (substring (lit "how to dispose") (lower text) \/
    substring (lit "can i throw") (lower text))).
Proof.
  rewrite classifier_cases. cbv zeta.
  unfold outcome_waste, outcome_banned, outcome_context, outcome_default.
  destruct (any (fun w => str_in w (lower text)) waste_keywords) eqn:Hw.
  { cbn [fst]. split; [intros _; left; now apply any_str_in_iff | trivial]. }
  apply any_str_in_false_iff in Hw.
  destruct (any (fun w => str_in w (lower text)) banned_keywords) eqn:Hb.
  { cbn [fst]. apply any_str_in_iff in Hb. split; [discriminate|].
    intros [H | [H _]]; contradiction. }
  apply any_str_in_false_iff in Hb.
  destruct (any (fun h => str_in h (lower text)) context_hints) eqn:Hc;
    cbn [fst].
  - split; [intros _ | trivial]. right. split; [exact Hb|].
    apply any_str_in_iff in Hc. destruct Hc as (h & Hin & Hsub).
    unfold context_hints in Hin. simpl in Hin.
    destruct Hin as [<- | [<- | [<- | [<- | []]]]]; auto.
    + elim Hw. now apply bin_day_mentions_waste.
    + elim Hw. now apply pickup_day_mentions_waste.
  - apply any_str_in_false_iff in Hc. split; [discriminate|].
    intros [H | [_ [H | H]]]; [contradiction | |]; elim Hc.
    + exists (lit "how to dispose"). split; [in_table | exact H].
    + exists (lit "can i throw"). split; [in_table | exact H].
Qed.

(** X8: the waste-keyword test gives the same result with the 40 keywords
    of [waste_core] as with the 62 of the table, and the banned-keyword test
    the same with the 35 of [banned_core] as with the 39 of the table: the
    other entries contain a shorter entry of their table. *)
Theorem redundant_keywords (t : str) :
  any (fun w => str_in w t) waste_keywords
  = any (fun w => str_in w t) waste_core /\
  any (fun w => str_in w t) banned_keywords
  = any (fun w => str_in w t) banned_core /\
  (List.length waste_keywords = 62 /\ List.length waste_core = 40 /\
   List.length banned_keywords = 39 /\ List.length banned_core = 35)%nat.
Proof.
  split; [|split; [|repeat split]].
  - apply any_bool_eq. split; apply mentions_subsumed;
      apply subsumed_by_check; vm_compute; reflexivity.
  - apply any_bool_eq. split; apply mentions_subsumed;
      apply subsumed_by_check; vm_compute; reflexivity.
Qed.

(** X9: a text whose lowered form has fewer than three characters gets the
    default outcome, every phrase of the three tables having three or more;
    so an ASCII message of fewer than three characters is refused with the
    could-not-match reason. *)
Theorem short_text_default :
  (forall text : str,
     (List.length (lower text) < 3)%nat ->
     is_waste_management_question text = (false, [reason_default])) /\
  (forall text : str,
     forallb is_ascii text = true ->
     (List.length text < 3)%nat ->
     chat (mkChatRequest text)
     = mkChatResponse refusal_reply false [reason_default]).
Proof.
  assert (Hlen : forall ks t,
             forallb (fun w => Nat.leb 3 (List.length w)) ks = true ->
             (List.length t < 3)%nat ->
             any (fun w => str_in w t) ks = false).
  { intros ks t Hks Ht. apply any_str_in_false_iff.
    intros (w & Hin & Hsub). rewrite forallb_forall in Hks.
    specialize (Hks w Hin). apply PeanoNat.Nat.leb_le in Hks.
    apply substring_length in Hsub. lia. }
  assert (Hgen : forall text : str,
             (List.length (lower text) < 3)%nat ->
             is_waste_management_question text = (false, [reason_default])).
  { intros text Ht. rewrite classifier_cases. cbv zeta.
    rewrite !Hlen; trivial; vm_compute; reflexivity. }
  split; [exact Hgen|].
  intros text Hascii Ht. apply chat_refused. simpl. apply Hgen.
  rewrite (lower_ascii text Hascii), length_map. exact Ht.
Qed.

(* ================================================================== *)
(** ** Further properties of the handler *)

Lemma allowed_reply (req : ChatRequest) (rs : list str) :
  is_waste_management_question (message req) = (true, rs) ->
  reply (chat req) = fallback_reply /\
  faq_scan faqs (lower (message req)) None = None \/
  exists k a, In (k, a) faqs /\ reply (chat req) = a /\
              faq_scan faqs (lower (message req)) None = Some a.
Proof.
  intros H. rewrite (chat_allowed req rs H). cbn [reply].
  destruct (faq_scan faqs (lower (message req)) None) as [a|] eqn:E.
  - right. destruct (faq_scan_answer _ _ _ E) as [k Hk]. eauto.
  - left. auto.
Qed.

(** X3: the response carries the classifier's verdict; its reply is one of
    ten fixed texts (the refusal, the fallback, the eight answers of the
    table) and is the refusal exactly when the message is not allowed. *)
Theorem chat_reply_fixed_set (req : ChatRequest) :
  allowed (chat req) = fst (is_waste_management_question (message req)) /\
  In (reply (chat req)) (refusal_reply :: fallback_reply :: map snd faqs) /\
  (reply (chat req) = refusal_reply <-> allowed (chat req) = false).
Proof.
  destruct (is_waste_management_question (message req)) as [al rs] eqn:E.
  destruct al.
  - destruct (allowed_reply req rs E) as [[Hr _] | (k & a & Hin & Hr & _)];
      rewrite Hr, (chat_allowed req rs E); cbn [allowed fst].
    + split; [reflexivity|]. split; [right; left; reflexivity|].
      split; [intros H; now elim fallback_not_refusal | discriminate].
    + split; [reflexivity|]. split.
      * right. right. apply (in_map snd) in Hin. exact Hin.
      * split; [|discriminate]. intros ->.
        now elim (proj1 (replies_distinct k refusal_reply Hin)).
  - rewrite (chat_refused req rs E). cbn [allowed reply fst].
    split; [reflexivity|]. split; [left; reflexivity|]. split; reflexivity.
Qed.

(** X5: on the context-hint path no waste keyword occurs in the text, so of
    the eight answers only those for [electronics] and [hazard], whose keys
    are no waste keywords, can be the reply; otherwise it is the fallback. *)
Theorem context_path_replies (req : ChatRequest) :
  In reason_context (reasons (chat req)) ->
  reply (chat req) = ans_electronics \/
  reply (chat req) = ans_hazard \/
  reply (chat req) = fallback_reply.
Proof.
  destruct reasons_distinct as (Nb & Nw & Nd).
  pose proof (classifier_cases (message req)) as H. cbv zeta in H.
  destruct (any (fun w => str_in w (lower (message req))) waste_keywords)
    eqn:Hw.
  { rewrite (chat_allowed req _ H). cbn [reasons].
    intros [E | []]. now elim Nw. }
  destruct (any (fun w => str_in w (lower (message req))) banned_keywords).
  { rewrite (chat_refused req _ H). cbn [reasons].
    intros [E | []]. now elim Nb. }
  destruct (any (fun h => str_in h (lower (message req))) context_hints).
  2:{ rewrite (chat_refused req _ H). cbn [reasons].
      intros [E | []]. now elim Nd. }
  intros _. rewrite (chat_allowed req _ H). cbn [reply].
  assert (Hk : forall k, In k waste_keywords ->
                         str_in k (lower (message req)) = false)
    by (intros k; now apply any_false_in).
  unfold faqs. cbn [faq_scan].
  rewrite (Hk (lit "plastic")) by in_table.
  rewrite (Hk (lit "battery")) by in_table.
  rewrite (Hk (lit "compost")) by in_table.
  rewrite (Hk (lit "glass")) by in_table.
  rewrite (Hk (lit "pickup")) by in_table.
  rewrite (Hk (lit "landfill")) by in_table.
  destruct (str_in (lit "electronics") (lower (message req))); auto.
  destruct (str_in (lit "hazard") (lower (message req))); auto.
Qed.

(** X6: for an allowed message the reply is the fallback exactly when no
    key of the FAQ table occurs in the lowered text. *)
Theorem fallback_iff_no_key (req : ChatRequest) :
  fst (is_waste_management_question (message req)) = true ->
  (reply (chat req) = fallback_reply <->
   forall k a, In (k, a) faqs -> ~ substring k (lower (message req))).
Proof.
  destruct (is_waste_management_question (message req)) as [al rs] eqn:E.
  cbn [fst]. intros ->.
  destruct (allowed_reply req rs E) as [[Hr Hs] | (k & a & Hin & Hr & Hs)].
  - split; [intros _ | intros _; exact Hr].
    intros k a Hin. apply str_in_false_iff.
    now apply (proj1 (faq_scan_none_iff faqs _) Hs k a).
  - split.
    + intros Hf. rewrite Hf in Hr. subst a.
      now elim (proj2 (replies_distinct k fallback_reply Hin)).
    + intros Hno.
      assert (Hnone : faq_scan faqs (lower (message req)) None = None).
      { apply faq_scan_none_iff. intros k' a' Hin'.
        apply str_in_false_iff. now apply (Hno k' a'). }
      congruence.
Qed.

(** X7: when one of the FAQ keys [plastic], [battery], [compost], [glass],
    [pickup], [landfill] occurs in the lowered text, the message is allowed
    for its waste keywords and the reply is one of the eight answers of the
    table, never the fallback and never the refusal. *)
Theorem waste_faq_key_answered (req : ChatRequest) (k : str) :
  In k faq_waste_keys ->
  substring k (lower (message req)) ->
  allowed (chat req) = true /\
  reasons (chat req) = [reason_waste] /\
  In (reply (chat req)) (map snd faqs) /\
  reply (chat req) <> fallback_reply /\
  reply (chat req) <> refusal_reply.
Proof.
  intros Hk Hsub.
  assert (Hw : In k waste_keywords /\ exists a, In (k, a) faqs).
  { unfold faq_waste_keys in Hk. simpl in Hk.
    destruct Hk as [<- | [<- | [<- | [<- | [<- | [<- | []]]]]]];
      (split; [in_table|]).
    - exists ans_plastic. unfold faqs. simpl. tauto.
    - exists ans_battery. unfold faqs. simpl. tauto.
    - exists ans_compost. unfold faqs. simpl. tauto.
    - exists ans_glass. unfold faqs. simpl. tauto.
    - exists ans_pickup. unfold faqs. simpl. tauto.
    - exists ans_landfill. unfold faqs. simpl. tauto. }
  destruct Hw as (Hw & a & Hfaq).
  assert (E : is_waste_management_question (message req) = outcome_waste).
  { apply classifier_waste_hit. apply any_str_in_iff. exists k. auto. }
  destruct (allowed_reply req _ E) as [[_ Hs] | (k' & a' & Hin & Hr & _)].
  - apply str_in_iff in Hsub.
    rewrite (proj1 (faq_scan_none_iff faqs _) Hs k a Hfaq) in Hsub.
    discriminate.
  - rewrite Hr, (chat_allowed req _ E). cbn [allowed reasons].
    destruct (replies_distinct k' a' Hin) as [N1 N2].
    repeat split; trivial. apply (in_map snd) in Hin. exact Hin.
Qed.

(** No entry of [waste_core] contains another, and none of [banned_core]. *)
Lemma core_tables_minimal :
  (forall k k', In k waste_core -> In k' waste_core ->
                substring k k' -> k = k') /\
  (forall k k', In k banned_core -> In k' banned_core ->
                substring k k' -> k = k').
Proof.
  assert (Hmin : forall ks,
             forallb (fun k' => forallb (fun k =>
                        implb (str_in k k') (str_eqb k k')) ks) ks = true ->
             forall k k', In k ks -> In k' ks -> substring k k' -> k = k').
  { intros ks H k k' Hk Hk' Hsub. rewrite forallb_forall in H.
    specialize (H k' Hk'). rewrite forallb_forall in H.
    specialize (H k Hk). apply str_in_iff in Hsub. rewrite Hsub in H.
    now apply str_eqb_eq. }
  split; apply Hmin; vm_compute; reflexivity.
Qed.

(* ================================================================== *)
(** ** The diagnostic endpoint *)

Lemma truthy_iff (v : option str) :
  truthy v = true <-> exists s, v = Some s /\ s <> [].
Proof.
  destruct v as [[|c s]|]; simpl.
  - split; [discriminate | intros (s & [= <-] & H); now elim H].
  - split; [intros _; exists (c :: s); split; [reflexivity | discriminate]
           | reflexivity].
  - split; [discriminate | intros (s & H & _); discriminate].
Qed.

(** X10: the [database_url] and [database_name] of the response tell only
    whether the environment variables [DATABASE_URL] and [DATABASE_NAME]
    are set to a non-empty value; what the database handle gave for them
    ([Configured], its name) is overwritten on every path. *)
Theorem test_database_env_fields (import_db : ImportOutcome)
        (getenv : str -> option str) :
  let r := test_database import_db getenv in
  ((exists s, getenv (lit "DATABASE_URL") = Some s /\ s <> []) ->
   database_url r = Some (check_mark ++ lit " Set")) /\
  (~ (exists s, getenv (lit "DATABASE_URL") = Some s /\ s <> []) ->
   database_url r = Some (cross_mark ++ lit " Not Set")) /\
  ((exists s, getenv (lit "DATABASE_NAME") = Some s /\ s <> []) ->
   database_name r = Some (check_mark ++ lit " Set")) /\
  (~ (exists s, getenv (lit "DATABASE_NAME") = Some s /\ s <> []) ->
   database_name r = Some (cross_mark ++ lit " Not Set")).
Proof.
  cbv zeta. unfold test_database. cbv zeta.
  cbn [set_database_name set_database_url database_url database_name].
  repeat split; intros H.
  - apply truthy_iff in H. now rewrite H.
  - destruct (truthy (getenv (lit "DATABASE_URL"))) eqn:E; [|reflexivity].
    apply truthy_iff in E. contradiction.
  - apply truthy_iff in H. now rewrite H.
  - destruct (truthy (getenv (lit "DATABASE_NAME"))) eqn:E; [|reflexivity].
    apply truthy_iff in E. contradiction.
Qed.


Lemma test_database_database_eq (import_db : ImportOutcome)
      (getenv : str -> option str) :
  database (test_database import_db getenv) =
    match import_db with
    | Imported (Some db) =>
        match list_collection_names db with
        | inr _ => check_mark ++ lit " Connected & Working"
        | inl e =>
            warning_sign ++ lit "  Connected but Error: " ++ firstn 50 e
        end
    | Imported None =>
        warning_sign ++ lit "  Available but not initialized"
    | ImportError =>
        cross_mark
        ++ lit " Database module not found (run enable-database first)"
    | ImportException e => cross_mark ++ lit " Error: " ++ firstn 50 e
    end.
Proof.
  destruct import_db as [|e|[[n [e|cs]]|]]; reflexivity.
Qed.



(** X12: the [database] text of the response has at most 75 characters,
    whatever the length of the message of the exception it reports: the
    message is cut to its first 50 characters. *)
Theorem test_database_text_bounded (import_db : ImportOutcome)
        (getenv : str -> option str) :
  (List.length (database (test_database import_db getenv)) <= 75)%nat.
Proof.
  rewrite test_database_database_eq.
  destruct import_db as [|e|[[n [e|cs]]|]]; cbn [list_collection_names];
    rewrite ?length_app;
    try (pose proof (firstn_le_length 50 e));
    change (List.length warning_sign) with 2%nat;
    change (List.length cross_mark) with 1%nat;
    change (List.length check_mark) with 1%nat;
    repeat match goal with
           | |- context [List.length (lit ?s)] =>
               let n := eval vm_compute in (List.length (lit s)) in
               change (List.length (lit s)) with n
           end; lia.
Qed.


End Backend.

(* ================================================================== *)
(** ** The theorems at concrete texts

    The texts below are ASCII, so the classifier never consults the Unicode
    database on them; [no_case_mapping] stands in for it. *)

(** A text with the banned keyword [stock] and the waste keywords
    [recycling] and [bin] is allowed. *)
Lemma waste_keyword_allowed_witness :
  mentions banned_keywords
    (lower no_case_mapping (lit "Stock up on recycling bins")) /\
  mentions waste_keywords
    (lower no_case_mapping (lit "Stock up on recycling bins")) /\
  is_waste_management_question no_case_mapping
    (lit "Stock up on recycling bins") = (true, [reason_waste]).
Proof.
  split; [apply any_str_in_iff; vm_compute; reflexivity|].
  split; [apply any_str_in_iff; vm_compute; reflexivity|].
  apply (waste_keyword_allowed no_case_mapping
           (lit "Stock up on recycling bins")).
  apply any_str_in_iff; vm_compute; reflexivity.
Defined.

Lemma banned_keyword_refused_witness :
  is_waste_management_question no_case_mapping
    (lit "What's the best stock to buy?") = (false, [reason_banned]).
Proof.
  apply (banned_keyword_refused no_case_mapping
           (lit "What's the best stock to buy?")).
  - apply any_str_in_iff; vm_compute; reflexivity.
  - apply any_str_in_false_iff; vm_compute; reflexivity.
Defined.

Lemma context_hint_allowed_witness :
  is_waste_management_question no_case_mapping
    (lit "How to dispose of it?") = (true, [reason_context]).
Proof.
  apply (context_hint_allowed no_case_mapping (lit "How to dispose of it?")).
  - apply any_str_in_false_iff; vm_compute; reflexivity.
  - apply any_str_in_false_iff; vm_compute; reflexivity.
  - apply any_str_in_iff; vm_compute; reflexivity.
Defined.

Lemma no_match_refused_witness :
  is_waste_management_question no_case_mapping
    (lit "Hello there, how are you?") = (false, [reason_default]).
Proof.
  apply (no_match_refused no_case_mapping (lit "Hello there, how are you?"));
    apply any_str_in_false_iff; vm_compute; reflexivity.
Defined.

(** [battery glass]: the pair before [battery] does not match, so the reply
    is the answer for [battery] although [glass] occurs too. *)
Lemma faq_first_match_witness :
  reply (chat no_case_mapping (mkChatRequest (lit "battery glass")))
  = ans_battery.
Proof.
  apply (proj1 (faq_first_match no_case_mapping)
           (mkChatRequest (lit "battery glass"))
           [(lit "plastic", ans_plastic)]
           (skipn 2 faqs) (lit "battery") ans_battery).
  - vm_compute; reflexivity.
  - reflexivity.
  - intros k a [[= <- <-] | []].
    apply str_in_false_iff; vm_compute; reflexivity.
  - apply str_in_iff; vm_compute; reflexivity.
Defined.

(** A blank text with a no-break space and an ideographic space in it. *)
Lemma classifier_total_blank_default_witness :
  forallb isspace [32; 160; 12288; 9] = true /\
  is_waste_management_question no_case_mapping [32; 160; 12288; 9]
  = (false, [reason_default]).
Proof.
  split; [vm_compute; reflexivity|].
  apply (proj2 (proj2 (classifier_total_blank_default no_case_mapping))).
  - intros s _. reflexivity.
  - vm_compute; reflexivity.
Defined.

Lemma context_reason_dispose_or_throw_witness :
  (substring (lit "how to dispose")
     (lower no_case_mapping (lit "Can I throw this away?")) \/
   substring (lit "can i throw")
     (lower no_case_mapping (lit "Can I throw this away?"))) /\
  is_waste_management_question no_case_mapping (lit "Is Monday pickup day?")
  = (true, [reason_waste]).
Proof.
  split.
  - apply (proj1 (context_reason_dispose_or_throw no_case_mapping)
             (lit "Can I throw this away?")).
    vm_compute. left. reflexivity.
  - apply (proj2 (context_reason_dispose_or_throw no_case_mapping)
             (lit "Is Monday pickup day?")).
    right. apply str_in_iff. vm_compute. reflexivity.
Defined.

(** The context-hint reading of the bin-day scenario fails: the reason given
    for [Tell me about bin day] is not the disposal/pickup-context reason,
    and a waste keyword does occur in the text. *)
Lemma bin_day_not_context_path :
  reasons (chat no_case_mapping req_bin_day) <> [reason_context] /\
  mentions waste_keywords (lower no_case_mapping (message req_bin_day)).
Proof.
  split.
  - vm_compute. discriminate.
  - apply any_str_in_iff. vm_compute. reflexivity.
Qed.

(* ================================================================== *)
(** ** The further properties at concrete inputs *)

Lemma chat_case_insensitive_witness :
  chat no_case_mapping (mkChatRequest (lit "RECYCLING Pickup"))
  = chat no_case_mapping (mkChatRequest (lit "recycling PICKUP")).
Proof.
  apply chat_case_insensitive; vm_compute; reflexivity.
Defined.


Lemma chat_reply_fixed_set_witness :
  reply (chat no_case_mapping
           (mkChatRequest (lit "What's the best stock to buy?")))
  = refusal_reply.
Proof.
  apply (proj2 (proj2 (chat_reply_fixed_set no_case_mapping
                         (mkChatRequest
                            (lit "What's the best stock to buy?"))))).
  vm_compute; reflexivity.
Defined.

Lemma allowed_iff_witness :
  fst (is_waste_management_question no_case_mapping
         (lit "Can I throw this away?")) = true.
Proof.
  apply (proj2 (allowed_iff no_case_mapping (lit "Can I throw this away?"))).
  right. split.
  - apply any_str_in_false_iff; vm_compute; reflexivity.
  - right. apply str_in_iff; vm_compute; reflexivity.
Defined.

(** A message on the context-hint path that gets the [electronics] answer. *)
Lemma context_path_replies_witness :
  In reason_context
     (reasons (chat no_case_mapping
                 (mkChatRequest (lit "How to dispose of electronics?")))) /\
  (reply (chat no_case_mapping
            (mkChatRequest (lit "How to dispose of electronics?")))
   = ans_electronics \/
   reply (chat no_case_mapping
            (mkChatRequest (lit "How to dispose of electronics?")))
   = ans_hazard \/
   reply (chat no_case_mapping
            (mkChatRequest (lit "How to dispose of electronics?")))
   = fallback_reply).
Proof.
  assert (H : In reason_context
                 (reasons (chat no_case_mapping
                    (mkChatRequest (lit "How to dispose of electronics?")))))
    by (vm_compute; left; reflexivity).
  split; [exact H|].
  exact (context_path_replies no_case_mapping _ H).
Defined.

Lemma fallback_iff_no_key_witness :
  reply (chat no_case_mapping req_bin_day) = fallback_reply.
Proof.
  apply (proj2 (fallback_iff_no_key no_case_mapping req_bin_day
                  ltac:(vm_compute; reflexivity))).
  intros k a Hin. unfold faqs in Hin.
  repeat (destruct Hin as [[= <- <-] | Hin];
          [apply str_in_false_iff; vm_compute; reflexivity|]).
  destruct Hin.
Defined.

Lemma waste_faq_key_answered_witness :
  allowed (chat no_case_mapping
             (mkChatRequest (lit "Broken glass and old batteries"))) = true /\
  In (reply (chat no_case_mapping
               (mkChatRequest (lit "Broken glass and old batteries"))))
     (map snd faqs).
Proof.
  destruct (waste_faq_key_answered no_case_mapping
              (mkChatRequest (lit "Broken glass and old batteries"))
              (lit "glass")) as (Ha & _ & Hr & _).
  - apply in_table_iff; vm_compute; reflexivity.
  - apply str_in_iff; vm_compute; reflexivity.
  - split; assumption.
Defined.

Lemma short_text_default_witness :
  chat no_case_mapping (mkChatRequest (lit "Hi"))
  = mkChatResponse refusal_reply false [reason_default].
Proof.
  apply (proj2 (short_text_default no_case_mapping) (lit "Hi")).
  - vm_compute; reflexivity.
  - vm_compute; lia.
Defined.

Lemma test_database_env_fields_witness :
  database_url (test_database (Imported (Some db_unreachable)) env_url_only)
  = Some (check_mark ++ lit " Set") /\
  database_name (test_database (Imported (Some db_unreachable)) env_url_only)
  = Some (cross_mark ++ lit " Not Set").
Proof.
  destruct (test_database_env_fields (Imported (Some db_unreachable))
              env_url_only) as (Hu & _ & _ & Hn).
  split.
  - apply Hu. exists (lit "mongodb://localhost").
    split; [reflexivity | discriminate].
  - apply Hn. intros (s & H & Hs). vm_compute in H.
    injection H as <-. now elim Hs.
Defined.


